(** * show_diff_proj.py: the diffraction projection window

    A shallow embedding of [show_diff_proj.py].  The script is one Qt
    main window ([DiffractionWindow]) whose callbacks mutate a handful of
    attributes and a matplotlib axes, plus two numeric operations: the
    normalisation of a grayscale image for display ([browseFile]) and the
    row sums of a cropped region ([show_projection]).

    - Python and numpy primitives are in [Module Py]: [int] on floats,
      slicing, [np.min]/[np.max], fixed-width subtraction, true division.
    - matplotlib objects are in [Module Mpl]: [Rectangle], its bounding box,
      mouse events.
    - The window is a record of the attributes of [self]; every callback is
      a computation in a small state-and-exception monad that also collects
      the effects that leave the window (the modal dialog, [print]).
    - The decoders and the path library are collaborators that the script
      imports; they are the fields of the class [Externals].

    Pixel samples are unsigned fixed-width integers (uint8, uint16 rasters);
    the wrap-around of numpy's subtraction is written out.  Coordinates and
    quotients are exact rationals: rounding of float64 and float32 is not
    modelled; the IEEE special values of a division by zero are. *)

From Stdlib Require Import ZArith QArith Qround Qminmax Ascii String DecimalString Lia.
From stdpp Require Import base list.

Local Open Scope Z_scope.

(** ** Exceptions *)

Inductive exn : Type :=
| ValueError        (* np.min / np.max of a zero-size array *)
| DecodeError       (* raised inside PIL or fabio while opening a file *)
| ConvertError.     (* raised by Image.fromarray(..).convert("L") *)

Inductive result (A : Type) : Type :=
| Ok (a : A)
| Raise (e : exn).

Arguments Ok {A} a.
Arguments Raise {A} e.

(** ** Python and numpy primitives *)

Module Py.

(** [int(x)] on a float: truncation toward zero. *)
Definition int (x : Q) : Z :=
  if Qle_bool 0 x then Qfloor x else Qceiling x.

(** [str(n)] for an integer, as an f-string prints it. *)
Definition str (n : Z) : string := NilZero.string_of_int (Z.to_int n).

(** The index that a slice bound [i] denotes in a sequence of length [n]:
    a negative bound counts from the end, and everything is clamped to
    [0..n] (CPython's PySlice_AdjustIndices, step 1). *)
Definition slice_index (n i : Z) : Z :=
  if i <? 0 then Z.max (i + n) 0 else Z.min i n.

(** [l[a:b]] *)
Definition slice {A : Type} (a b : Z) (l : list A) : list A :=
  let n := Z.of_nat (length l) in
  let lo := slice_index n a in
  let hi := slice_index n b in
  take (Z.to_nat (hi - lo)) (drop (Z.to_nat lo) l).

(** [img[y0:y1, x0:x1]] on a 2-D array stored as a list of rows. *)
Definition slice2 (y0 y1 x0 x1 : Z) (img : list (list Z)) : list (list Z) :=
  map (slice x0 x1) (slice y0 y1 img).

(** Values of a float64 array; only division can leave the finite ones. *)
Inductive float : Type :=
| Finite (q : Q)
| PosInf
| NegInf
| NaN.

Definition is_finite (v : float) : bool :=
  match v with Finite _ => true | _ => false end.

(** Arithmetic on [bits]-wide unsigned samples wraps modulo [2^bits]. *)
Definition wrap (bits : Z) (z : Z) : Z := z mod 2 ^ bits.

Definition sub (bits : Z) (a b : Z) : Z := wrap bits (a - b).

(** [a / b] on integer operands: numpy's true_divide, which converts to
    float64 and follows IEEE 754 for a zero divisor (a RuntimeWarning is
    printed, nothing is raised). *)
Definition true_divide (a b : Z) : float :=
  if b =? 0 then
    if a =? 0 then NaN else if 0 <? a then PosInf else NegInf
  else Finite (inject_Z a / inject_Z b).

(** Reductions over all elements of a 2-D array. *)
Definition reduce (f : Z -> Z -> Z) (img : list (list Z)) : result Z :=
  match concat img with
  | [] => Raise ValueError
  | p :: ps => Ok (fold_left f ps p)
  end.

Definition np_min : list (list Z) -> result Z := reduce Z.min.
Definition np_max : list (list Z) -> result Z := reduce Z.max.

(** [np.sum(region, axis=1)]: one sum per row. *)
Definition sum (row : list Z) : Z := fold_right Z.add 0 row.
Definition np_sum_axis1 (region : list (list Z)) : list Z := map sum region.

End Py.

(** ** numpy arrays as the decoders deliver them *)

Inductive ndarray : Type :=
| Array2 (bits : Z) (px : list (list Z))            (* ndim = 2: rows of samples *)
| Array3 (bits : Z) (px : list (list (list Z))).    (* ndim = 3: rows of pixels of channels *)

Definition ndim (a : ndarray) : Z :=
  match a with Array2 _ _ => 2 | Array3 _ _ => 3 end.

(** [a.copy()]: arrays are values here, a copy has the same contents. *)
Definition copy (a : ndarray) : ndarray := a.

(** ** matplotlib objects *)

Module Mpl.

(** [patches.Rectangle((x, y), width, height, linewidth=..., edgecolor='red',
    facecolor='none')]; width and height may be negative. *)
Record Rectangle : Type := mkRectangle {
  rect_x : Q;
  rect_y : Q;
  rect_width : Q;
  rect_height : Q;
  rect_linewidth : Z
}.

Definition set_bounds (r : Rectangle) (x y w h : Q) : Rectangle :=
  {| rect_x := x; rect_y := y; rect_width := w; rect_height := h;
     rect_linewidth := rect_linewidth r |}.

(** [r.get_bbox().get_points()]: the rows [[x, y], [x + w, y + h]]. *)
Definition get_points (r : Rectangle) : (Q * Q) * (Q * Q) :=
  ((rect_x r, rect_y r),
   ((rect_x r + rect_width r)%Q, (rect_y r + rect_height r)%Q)).

(** A mouse event: [inaxes] tells whether [event.inaxes] is the canvas's
    axes; [xdata], [ydata] are the data coordinates of the pointer. *)
Record MouseEvent : Type := mkMouseEvent {
  inaxes : bool;
  xdata : Q;
  ydata : Q
}.

(** What [imshow] was handed. *)
Inductive AxesImage : Type :=
| GrayImage (buf : list (list Py.float))     (* imshow(img, cmap='gray') *)
| RawImage (a : ndarray).                    (* imshow(img) *)

End Mpl.

Import Mpl.

(** ** Collaborators imported by the script *)

Class Externals : Type := {
  (** [Path(file_path).suffix.lower()] *)
  Path_suffix_lower : string -> string;
  (** [np.array(Image.open(file_path))] *)
  np_array_Image_open : string -> result ndarray;
  (** [fabio.open(file_path).data] *)
  fabio_open_data : string -> result ndarray;
  (** [np.array(Image.fromarray(img).convert("L"))]: a single-band image *)
  Image_fromarray_convert_L : ndarray -> result (list (list Z))
}.

(** ** The window *)

(** Effects that leave the window. *)
Inductive Effect : Type :=
| PlotDialog_exec (data : list Z)    (* PlotDialog(self, data).exec() *)
| print (text : string).

(** The attributes of [self].  Rectangle objects live in [patch_objects]
    and are referred to by their position there, so that the axes and the
    attributes can hold the same object. *)
Record DiffractionWindow : Type := mkWindow {
  image : option ndarray;
  start_point : option (Q * Q);
  rect_patch : option nat;
  last_rect_patch : option nat;
  patch_objects : list Rectangle;
  axes_patches : list nat;             (* self.canvas.axes: patches drawn *)
  axes_image : option AxesImage;       (* self.canvas.axes: image drawn *)
  canvas_visible : bool;               (* self.canvas.hide() / show() *)
  coord_label : string;                (* self.coord_label text *)
  showProjBtn_enabled : bool           (* self.showProjBtn *)
}.

(** [DiffractionWindow.__init__] *)
Definition init : DiffractionWindow :=
  {| image := None;
     start_point := None;
     rect_patch := None;
     last_rect_patch := None;
     patch_objects := [];
     axes_patches := [];
     axes_image := None;
     canvas_visible := false;
     coord_label := "Mouse: ";
     showProjBtn_enabled := false |}.

(** *** The monad of the callbacks *)

Definition M (A : Type) : Type :=
  DiffractionWindow -> DiffractionWindow * list Effect * result A.

Definition ret {A : Type} (a : A) : M A := fun s => (s, [], Ok a).

Definition bind {A B : Type} (m : M A) (k : A -> M B) : M B :=
  fun s =>
    match m s with
    | (s1, out1, Ok a) =>
        match k a s1 with
        | (s2, out2, r) => (s2, out1 ++ out2, r)
        end
    | (s1, out1, Raise e) => (s1, out1, Raise e)
    end.

Notation "x <- m ;; k" := (bind m (fun x => k))
  (at level 100, m at next level, right associativity).
Notation "m ;; k" := (bind m (fun _ => k))
  (at level 100, right associativity).

Definition get : M DiffractionWindow := fun s => (s, [], Ok s).
Definition modify (f : DiffractionWindow -> DiffractionWindow) : M unit :=
  fun s => (f s, [], Ok tt).
Definition emit (e : Effect) : M unit := fun s => (s, [e], Ok tt).
Definition lift {A : Type} (r : result A) : M A := fun s => (s, [], r).

Definition state_of {A : Type} (o : DiffractionWindow * list Effect * result A)
  : DiffractionWindow := fst (fst o).
Definition effects_of {A : Type} (o : DiffractionWindow * list Effect * result A)
  : list Effect := snd (fst o).
Definition result_of {A : Type} (o : DiffractionWindow * list Effect * result A)
  : result A := snd o.

(** *** Assignments to the attributes *)

Definition set_image (v : option ndarray) : M unit :=
  modify (fun s => mkWindow v (start_point s) (rect_patch s) (last_rect_patch s)
    (patch_objects s) (axes_patches s) (axes_image s) (canvas_visible s)
    (coord_label s) (showProjBtn_enabled s)).

Definition set_start_point (v : option (Q * Q)) : M unit :=
  modify (fun s => mkWindow (image s) v (rect_patch s) (last_rect_patch s)
    (patch_objects s) (axes_patches s) (axes_image s) (canvas_visible s)
    (coord_label s) (showProjBtn_enabled s)).

Definition set_rect_patch (v : option nat) : M unit :=
  modify (fun s => mkWindow (image s) (start_point s) v (last_rect_patch s)
    (patch_objects s) (axes_patches s) (axes_image s) (canvas_visible s)
    (coord_label s) (showProjBtn_enabled s)).

Definition set_last_rect_patch (v : option nat) : M unit :=
  modify (fun s => mkWindow (image s) (start_point s) (rect_patch s) v
    (patch_objects s) (axes_patches s) (axes_image s) (canvas_visible s)
    (coord_label s) (showProjBtn_enabled s)).

(** *** Widgets *)

(** [patches.Rectangle(...)]: a new object. *)
Definition new_Rectangle (x y w h : Q) (lw : Z) : M nat :=
  fun s =>
    (mkWindow (image s) (start_point s) (rect_patch s) (last_rect_patch s)
       (patch_objects s ++ [mkRectangle x y w h lw]) (axes_patches s)
       (axes_image s) (canvas_visible s) (coord_label s) (showProjBtn_enabled s),
     [], Ok (length (patch_objects s))).

(** [p.set_bounds(x, y, w, h)]: updates the object in place. *)
Definition patch_set_bounds (p : nat) (x y w h : Q) : M unit :=
  modify (fun s => mkWindow (image s) (start_point s) (rect_patch s) (last_rect_patch s)
    (alter (fun r => set_bounds r x y w h) p (patch_objects s)) (axes_patches s)
    (axes_image s) (canvas_visible s) (coord_label s) (showProjBtn_enabled s)).

Definition set_axes_patches (f : list nat -> list nat) : M unit :=
  modify (fun s => mkWindow (image s) (start_point s) (rect_patch s) (last_rect_patch s)
    (patch_objects s) (f (axes_patches s)) (axes_image s) (canvas_visible s)
    (coord_label s) (showProjBtn_enabled s)).

(** [self.canvas.axes.add_patch(p)] *)
Definition axes_add_patch (p : nat) : M unit :=
  set_axes_patches (fun ps => ps ++ [p]).

(** [p.remove()]: the axes no longer draw [p]. *)
Definition patch_remove (p : nat) : M unit :=
  set_axes_patches (fun ps => filter (fun q => q <> p) ps).

Definition set_axes_image (v : option AxesImage) : M unit :=
  modify (fun s => mkWindow (image s) (start_point s) (rect_patch s) (last_rect_patch s)
    (patch_objects s) (axes_patches s) v (canvas_visible s)
    (coord_label s) (showProjBtn_enabled s)).

(** [ax.cla()]: everything drawn on the axes is dropped. *)
Definition axes_cla : M unit :=
  set_axes_patches (fun _ => []) ;; set_axes_image None.

(** [ax.imshow(...)] *)
Definition axes_imshow (im : AxesImage) : M unit := set_axes_image (Some im).

(** [self.canvas.draw()] and [draw_idle()] repaint from the axes' contents. *)
Definition canvas_draw : M unit := ret tt.
Definition canvas_draw_idle : M unit := ret tt.

(** [self.canvas.show()] *)
Definition canvas_show : M unit :=
  modify (fun s => mkWindow (image s) (start_point s) (rect_patch s) (last_rect_patch s)
    (patch_objects s) (axes_patches s) (axes_image s) true
    (coord_label s) (showProjBtn_enabled s)).

(** [self.coord_label.setText(text)] *)
Definition coord_label_setText (text : string) : M unit :=
  modify (fun s => mkWindow (image s) (start_point s) (rect_patch s) (last_rect_patch s)
    (patch_objects s) (axes_patches s) (axes_image s) (canvas_visible s)
    text (showProjBtn_enabled s)).

(** [self.showProjBtn.setEnabled(b)] *)
Definition showProjBtn_setEnabled (b : bool) : M unit :=
  modify (fun s => mkWindow (image s) (start_point s) (rect_patch s) (last_rect_patch s)
    (patch_objects s) (axes_patches s) (axes_image s) (canvas_visible s)
    (coord_label s) b).

(** ** The callbacks of [DiffractionWindow] *)

Section Callbacks.

Context `{ext : Externals}.

(** The display buffer of a grayscale image:
    [(img - np.min(img)) / (np.max(img) - np.min(img))]. *)
Definition normalize (bits : Z) (img : list (list Z)) : result (list (list Py.float)) :=
  match Py.np_min img with
  | Raise e => Raise e
  | Ok lo =>
      let shifted := map (map (fun p => Py.sub bits p lo)) img in
      match Py.np_max img with
      | Raise e => Raise e
      | Ok hi =>
          match Py.np_min img with
          | Raise e => Raise e
          | Ok lo' =>
              let range := Py.sub bits hi lo' in
              Ok (map (map (fun p => Py.true_divide p range)) shifted)
          end
      end
  end.

(** [imagePressed(self, event)] *)
Definition imagePressed (event : MouseEvent) : M unit :=
  if negb (inaxes event) then ret tt
  else
    self <- get ;;
    match start_point self with
    | None =>
        set_start_point (Some (xdata event, ydata event)) ;;
        let x0 := xdata event in
        let y0 := ydata event in
        coord_label_setText
          ("Rect: x0=" ++ Py.str (Py.int x0) ++ " y0=" ++ Py.str (Py.int y0)) ;;
        showProjBtn_setEnabled false ;;
        match last_rect_patch self with      (* a Rectangle is truthy *)
        | Some p =>
            patch_remove p ;;
            set_last_rect_patch None ;;
            canvas_draw_idle
        | None => ret tt
        end
    | Some (x0, y0) =>
        let x1 := xdata event in
        let y1 := ydata event in
        let width := (x1 - x0)%Q in
        let height := (y1 - y0)%Q in
        p <- new_Rectangle x0 y0 width height 2 ;;
        set_last_rect_patch (Some p) ;;
        axes_add_patch p ;;
        set_start_point None ;;
        match rect_patch self with           (* a Rectangle is truthy *)
        | Some q =>
            patch_remove q ;;
            set_rect_patch None
        | None => ret tt
        end ;;
        canvas_draw_idle ;;
        showProjBtn_setEnabled true
    end.

(** [imageOnMotion(self, event)]; a start point, a pair, is truthy. *)
Definition imageOnMotion (event : MouseEvent) : M unit :=
  self <- get ;;
  match inaxes event, start_point self with
  | true, Some (x0, y0) =>
      let x1 := xdata event in
      let y1 := ydata event in
      let width := (x1 - x0)%Q in
      let height := (y1 - y0)%Q in
      coord_label_setText
        ("Rect: x0=" ++ Py.str (Py.int x0) ++ " y0=" ++ Py.str (Py.int y0)
         ++ ", x1=" ++ Py.str (Py.int x1) ++ ", y1=" ++ Py.str (Py.int y1)) ;;
      match rect_patch self with
      | Some q => patch_set_bounds q x0 y0 width height
      | None =>
          p <- new_Rectangle x0 y0 width height 1 ;;
          set_rect_patch (Some p) ;;
          axes_add_patch p
      end ;;
      canvas_draw_idle
  | _, _ => ret tt
  end.

(** [imageReleased(self, event)] *)
Definition imageReleased (event : MouseEvent) : M unit :=
  if negb (inaxes event) then ret tt else ret tt.

(** The decoder is chosen by the suffix of the path. *)
Definition decode (file_path : string) : result ndarray :=
  if existsb (String.eqb (Path_suffix_lower file_path)) [".png"; ".jpeg"]%string
  then np_array_Image_open file_path
  else fabio_open_data file_path.

(** [browseFile(self)]; [file_path] is what the file dialog returned, the
    empty string when it was cancelled. *)
Definition browseFile (file_path : string) : M unit :=
  if (file_path =? "")%string then emit (print "No file selected.")
  else
    decoded <- lift (decode file_path) ;;
    set_image (Some decoded) ;;
    axes_cla ;;
    let img := copy decoded in
    match img with
    | Array2 bits px =>                      (* img.ndim == 2 *)
        buf <- lift (normalize bits px) ;;
        axes_imshow (GrayImage buf)
    | Array3 _ _ => axes_imshow (RawImage img)
    end ;;
    canvas_draw ;;
    canvas_show ;;
    coord_label_setText "Mouse: " ;;
    showProjBtn_setEnabled false.

(** The integer bounds that [show_projection] reads off the committed
    rectangle: [(x0, x1, y0, y1)]. *)
Definition crop_bounds (r : Rectangle) : Z * Z * Z * Z :=
  let '((ax, ay), (bx, by_)) := get_points r in
  (Py.int (Qmin ax bx), Py.int (Qmax ax bx),
   Py.int (Qmin ay by_), Py.int (Qmax ay by_)).

(** [show_projection(self)] *)
Definition show_projection : M unit :=
  self <- get ;;
  match image self, last_rect_patch self with
  | None, _ => ret tt
  | _, None => ret tt
  | Some image0, Some patch =>
      let img := copy image0 in
      gray <- match img with
              | Array2 _ px => ret px
              | Array3 _ _ =>                 (* img.ndim > 2 *)
                  lift (Image_fromarray_convert_L img)
              end ;;
      match patch_objects self !! patch with
      | None => ret tt    (* no such object: excluded by [inv_last_ref] *)
      | Some r =>
          let '(x0, x1, y0, y1) := crop_bounds r in
          let region := Py.slice2 y0 y1 x0 x1 gray in
          let pixel_sums := Py.np_sum_axis1 region in
          emit (PlotDialog_exec pixel_sums)
      end
  end.

(** ** Events *)

Inductive UserAction : Type :=
| SelectImage (file_path : string)    (* File > Select an Image..., then the dialog *)
| ButtonPress (event : MouseEvent)
| MotionNotify (event : MouseEvent)
| ButtonRelease (event : MouseEvent)
| ClickShowProjection.

(** Qt delivers mouse events to the canvas only while it is shown, and a
    click to the button only while it is enabled. *)
Definition dispatch (a : UserAction) : M unit :=
  self <- get ;;
  match a with
  | SelectImage file_path => browseFile file_path
  | ButtonPress event =>
      if canvas_visible self then imagePressed event else ret tt
  | MotionNotify event =>
      if canvas_visible self then imageOnMotion event else ret tt
  | ButtonRelease event =>
      if canvas_visible self then imageReleased event else ret tt
  | ClickShowProjection =>
      if showProjBtn_enabled self then show_projection else ret tt
  end.

(** An exception that escapes a slot is reported and the event loop goes
    on with the attributes as the slot left them. *)
Definition step (s : DiffractionWindow) (a : UserAction) : DiffractionWindow :=
  state_of (dispatch a s).

Definition run (s : DiffractionWindow) (l : list UserAction) : DiffractionWindow :=
  fold_left step l s.

Inductive reachable : DiffractionWindow -> Prop :=
| reachable_init : reachable init
| reachable_step s a : reachable s -> reachable (step s a).

End Callbacks.

(** ** Notions used by the statements *)

(** Following the specification's words ("rows [y0,y1) and columns
    [x0,x1)"): the elements of [l] whose index [i] satisfies
    [lo <= i < hi], in order; [i0] is the index of the head. *)
Fixpoint between_from {A : Type} (i0 lo hi : Z) (l : list A) : list A :=
  match l with
  | [] => []
  | x :: l' =>
      if (lo <=? i0) && (i0 <? hi)
      then x :: between_from (i0 + 1) lo hi l'
      else between_from (i0 + 1) lo hi l'
  end.

Definition between {A : Type} (lo hi : Z) (l : list A) : list A :=
  between_from 0 lo hi l.

(** Every sample fits the unsigned [bits]-wide type of its array. *)
Definition samples_in_range (bits : Z) (px : list (list Z)) : Prop :=
  Forall (Forall (fun p => 0 <= p < 2 ^ bits)) px.


(** The state of the selection gesture. *)
Inductive Gesture : Type :=
| Idle
| Pending (start : Q * Q).

Definition gesture (s : DiffractionWindow) : Gesture :=
  match start_point s with
  | None => Idle
  | Some p => Pending p
  end.

(** The committed rectangle: the object that [self.last_rect_patch] refers to. *)
Definition committed_rectangle (s : DiffractionWindow) : option Rectangle :=
  match last_rect_patch s with
  | Some p => patch_objects s !! p
  | None => None
  end.


Definition ordered (b : Z * Z * Z * Z) : Prop :=
  let '(x0, x1, y0, y1) := b in x0 <= x1 /\ y0 <= y1.




(** What holds of the attributes in every state the window can reach. *)
Record invariant (s : DiffractionWindow) : Prop := mkInvariant {
  inv_shown_image : canvas_visible s = true -> image s <> None;
  inv_enabled_shown : showProjBtn_enabled s = true -> canvas_visible s = true;
  inv_enabled_rect : showProjBtn_enabled s = true -> last_rect_patch s <> None;
  inv_rect_idle : last_rect_patch s <> None -> start_point s = None;
  inv_idle_preview : start_point s = None -> rect_patch s = None;
  inv_drawn : forall q, q ∈ axes_patches s ->
                        last_rect_patch s = Some q \/ rect_patch s = Some q;
  inv_drawn_enabled : forall p, last_rect_patch s = Some p -> p ∈ axes_patches s ->
                                showProjBtn_enabled s = true;
  inv_last_ref : forall p, last_rect_patch s = Some p ->
                           (p < length (patch_objects s))%nat;
  inv_preview_ref : forall p, rect_patch s = Some p ->
                              (p < length (patch_objects s))%nat
}.

(** ** Sample files and events *)

Module Sample.

Definition ramp : list (list Z) :=
  [[0; 1; 2; 3]; [4; 5; 6; 7]; [8; 9; 10; 11]; [12; 13; 14; 15]].

Definition flat : list (list Z) := [[7; 7]; [7; 7]].

Definition tiny : list (list Z) := [[0; 9]; [9; 0]].

Definition rgb : list (list (list Z)) :=
  [[[255; 0; 0]; [0; 255; 0]; [0; 0; 255]];
   [[10; 20; 30]; [40; 50; 60]; [70; 80; 90]]].

(** The luma of an RGB pixel as PIL's mode "L" computes it (ITU-R 601-2,
    16-bit fixed point). *)
Definition luma601 (pixel : list Z) : Z :=
  match pixel with
  | r :: g :: b :: _ => Z.shiftr (r * 19595 + g * 38470 + b * 7471 + 32768) 16
  | _ => 0
  end.

Definition convert_L (a : ndarray) : result (list (list Z)) :=
  match a with
  | Array3 8 px => Ok (map (map luma601) px)
  | _ => Raise ConvertError
  end.

Definition open_file (file_path : string) : result ndarray :=
  if (file_path =? "ramp.png")%string then Ok (Array2 8 ramp)
  else if (file_path =? "flat.png")%string then Ok (Array2 8 flat)
  else if (file_path =? "tiny.png")%string then Ok (Array2 8 tiny)
  else if (file_path =? "rgb.png")%string then Ok (Array3 8 rgb)
  else Raise DecodeError.

(** The text from the last dot on, in lower case letters of ASCII. *)
Fixpoint last_suffix (acc : option string) (p : string) : string :=
  match p with
  | EmptyString => match acc with Some t => t | None => ""%string end
  | String c p' =>
      let lower :=
        if ((65 <=? Z.of_nat (Ascii.nat_of_ascii c))
            && (Z.of_nat (Ascii.nat_of_ascii c) <=? 90))%bool
        then Ascii.ascii_of_nat (Ascii.nat_of_ascii c + 32) else c in
      if Ascii.eqb c "."%char
      then last_suffix (Some "."%string) p'
      else last_suffix (option_map (fun t => (t ++ String lower "")%string) acc) p'
  end.

Definition files : Externals :=
  {| Path_suffix_lower := last_suffix None;
     np_array_Image_open := open_file;
     fabio_open_data := fun _ => Raise DecodeError;
     Image_fromarray_convert_L := convert_L |}.

Definition at_point (x y : Q) : MouseEvent :=
  {| inaxes := true; xdata := x; ydata := y |}.

Definition run_sample : list UserAction -> DiffractionWindow :=
  @run files init.

(** An image is shown and nothing is selected. *)
Definition loaded : DiffractionWindow :=
  run_sample [SelectImage "ramp.png"].

(** One click at (1, 1): a selection is in progress. *)
Definition pending : DiffractionWindow :=
  run_sample [SelectImage "ramp.png"; ButtonPress (at_point 1 1)].


(** Two clicks, at (1, 1) and at (3, 3), with the pointer moved in between. *)
Definition committed : DiffractionWindow :=
  run_sample [SelectImage "ramp.png"; ButtonPress (at_point 1 1);
              MotionNotify (at_point 2 2); ButtonPress (at_point 3 3)].

Definition selected_rgb : DiffractionWindow :=
  run_sample [SelectImage "rgb.png"; ButtonPress (at_point 0 0);
              ButtonPress (at_point 3 2)].

(** Two clicks at the same point. *)
Definition double_click : DiffractionWindow :=
  run_sample [SelectImage "ramp.png"; ButtonPress (at_point 2 2);
              ButtonPress (at_point 2 2)].

(** A second file is opened after a rectangle was committed. *)
Definition reloaded_after_commit : DiffractionWindow :=
  run_sample [SelectImage "ramp.png"; ButtonPress (at_point 1 1);
              ButtonPress (at_point 3 3); SelectImage "tiny.png"].

(** A second file is opened between the two clicks of a selection. *)
Definition reloaded_while_pending : DiffractionWindow :=
  run_sample [SelectImage "ramp.png"; ButtonPress (at_point 1 1);
              SelectImage "tiny.png"].

(** The same, with the preview rectangle drawn before the second file. *)
Definition reloaded_with_preview : DiffractionWindow :=
  run_sample [SelectImage "ramp.png"; ButtonPress (at_point 1 1);
              MotionNotify (at_point 2 2); SelectImage "tiny.png"].

(** The pointer has moved after the first click: a preview is drawn. *)
Definition dragging : DiffractionWindow :=
  run_sample [SelectImage "ramp.png"; ButtonPress (at_point 1 1);
              MotionNotify (at_point 2 2)].

(** Clicks before any file was opened. *)
Definition clicked_too_early : DiffractionWindow :=
  run_sample [ButtonPress (at_point 1 1); MotionNotify (at_point 2 2);
              SelectImage ""].

(** Decoders that deliver an array without elements. *)
Definition blank_files : Externals :=
  {| Path_suffix_lower := last_suffix None;
     np_array_Image_open := fun _ => Ok (Array2 8 []);
     fabio_open_data := fun _ => Ok (Array2 8 []);
     Image_fromarray_convert_L := convert_L |}.

End Sample.

(** ** The projection dialog *)

Module Plot.

(** A line of a plot: [ax.plot(ydata, label=...)] draws [ydata] against
    the positions 0, 1, 2, ... *)
Record Line2D : Type := mkLine2D {
  line_xdata : list Z;
  line_ydata : list Z;
  line_label : string
}.

Record Axes : Type := mkAxes {
  xlabel : string;
  ylabel : string;
  title : string;
  lines : list Line2D;
  legend : option (string * list string)    (* location, labels of the lines *)
}.

(** [ax.cla()] *)
Definition cla (ax : Axes) : Axes := mkAxes "" "" "" [] None.

Definition set_xlabel (text : string) (ax : Axes) : Axes :=
  mkAxes text (ylabel ax) (title ax) (lines ax) (legend ax).
Definition set_ylabel (text : string) (ax : Axes) : Axes :=
  mkAxes (xlabel ax) text (title ax) (lines ax) (legend ax).
Definition set_title (text : string) (ax : Axes) : Axes :=
  mkAxes (xlabel ax) (ylabel ax) text (lines ax) (legend ax).

(** [ax.plot(data, label=label)] *)
Definition plot_line (data : list Z) (label : string) (ax : Axes) : Axes :=
  mkAxes (xlabel ax) (ylabel ax) (title ax)
    (lines ax ++ [mkLine2D (Z.of_nat <$> seq 0 (length data)) data label])
    (legend ax).

(** [ax.legend(loc=loc)]: one entry per line. *)
Definition add_legend (loc : string) (ax : Axes) : Axes :=
  mkAxes (xlabel ax) (ylabel ax) (title ax) (lines ax)
    (Some (loc, map line_label (lines ax))).

Record PlotDialog : Type := mkPlotDialog {
  windowTitle : string;
  fixedSize : Z * Z;
  canvas_axes : Axes
}.

(** [PlotDialog.plot(self, data)] *)
Definition plot (data : list Z) (self : PlotDialog) : PlotDialog :=
  let ax := canvas_axes self in
  let ax := cla ax in
  let ax := set_xlabel "Column (Y in Image)" ax in
  let ax := set_ylabel "Pixel Sum" ax in
  let ax := set_title "Pixel Sum Along Each Column" ax in
  let ax := plot_line data "Pixel Sum" ax in
  let ax := add_legend "upper right" ax in
  mkPlotDialog (windowTitle self) (fixedSize self) ax.

(** [PlotDialog.__init__(self, parent, data)] *)
Definition init (data : list Z) : PlotDialog :=
  plot data (mkPlotDialog "Diffraction Profile" (500, 400) (mkAxes "" "" "" [] None)).

End Plot.

(** ** Further notions *)

(** An action that is a press delivered inside the axes. *)
Definition press_in_axes (a : UserAction) : bool :=
  match a with
  | ButtonPress e => inaxes e
  | _ => false
  end.

(** An action that opens the file dialog. *)
Definition is_load (a : UserAction) : bool :=
  match a with
  | SelectImage _ => true
  | _ => false
  end.

(** The selection attributes and widgets as [__init__] leaves them. *)
Definition nothing_selected (s : DiffractionWindow) : Prop :=
  start_point s = None /\ rect_patch s = None /\ last_rect_patch s = None
  /\ patch_objects s = [] /\ axes_patches s = []
  /\ showProjBtn_enabled s = false /\ coord_label s = "Mouse: "%string.

(** The corners of [r] lie inside the axes of an image of [w] columns and
    [h] rows, which extend from -0.5 to w - 0.5 and to h - 0.5. *)
Definition inside_axes (w h : Z) (r : Rectangle) : Prop :=
  let '((ax, ay), (bx, by_)) := get_points r in
  ((-1 < ax)%Q /\ (ax < inject_Z w)%Q) /\ ((-1 < bx)%Q /\ (bx < inject_Z w)%Q)
  /\ ((-1 < ay)%Q /\ (ay < inject_Z h)%Q) /\ ((-1 < by_)%Q /\ (by_ < inject_Z h)%Q).

(** ** Evaluating a callback on a window given by its fields *)

Ltac run_M :=
  cbv [bind ret get modify emit lift
       set_image set_start_point set_rect_patch set_last_rect_patch
       new_Rectangle patch_set_bounds set_axes_patches axes_add_patch
       patch_remove set_axes_image axes_cla axes_imshow canvas_draw
       canvas_draw_idle canvas_show coord_label_setText showProjBtn_setEnabled
       state_of effects_of result_of fst snd
       image start_point rect_patch last_rect_patch patch_objects axes_patches
       axes_image canvas_visible coord_label showProjBtn_enabled negb copy].

(** * Properties *)

(** ** Python and numpy primitives *)


Lemma int_nonneg (x : Q) : (0 <= x)%Q -> 0 <= Py.int x.
Proof.
  intros H. unfold Py.int.
  destruct (Qle_bool 0 x) eqn:E.
  - change (Qfloor 0 <= Qfloor x). apply Qfloor_resp_le, H.
  - apply Qle_bool_iff in H. congruence.
Qed.

Lemma int_nonpos (x : Q) : (x <= 0)%Q -> Py.int x <= 0.
Proof.
  intros H. unfold Py.int.
  destruct (Qle_bool 0 x) eqn:E.
  - change (Qfloor x <= Qfloor 0). apply Qfloor_resp_le, H.
  - change (Qceiling x <= Qceiling 0). apply Qceiling_resp_le, H.
Qed.

Lemma int_monotone (x y : Q) : (x <= y)%Q -> Py.int x <= Py.int y.
Proof.
  intros H.
  destruct (Qlt_le_dec x 0) as [Hx | Hx], (Qlt_le_dec y 0) as [Hy | Hy].
  - unfold Py.int.
    destruct (Qle_bool 0 x) eqn:Ex; [apply Qle_bool_iff in Ex; exfalso; exact (Qlt_not_le _ _ Hx Ex) |].
    destruct (Qle_bool 0 y) eqn:Ey; [apply Qle_bool_iff in Ey; exfalso; exact (Qlt_not_le _ _ Hy Ey) |].
    apply Qceiling_resp_le, H.
  - transitivity 0; [apply int_nonpos, Qlt_le_weak, Hx | apply int_nonneg, Hy].
  - exfalso. exact (Qlt_not_le _ _ Hy (Qle_trans _ _ _ Hx H)).
  - unfold Py.int.
    destruct (Qle_bool 0 x) eqn:Ex; [| apply Qle_bool_iff in Hx; congruence].
    destruct (Qle_bool 0 y) eqn:Ey; [| apply Qle_bool_iff in Hy; congruence].
    apply Qfloor_resp_le, H.
Qed.

(** [int] is the quotient that rounds toward zero. *)
Lemma int_quot (a : Z) (b : positive) : Py.int (a # b) = Z.quot a (Z.pos b).
Proof.
  unfold Py.int, Qle_bool, Qceiling, Qfloor. cbn [Qnum Qden Qopp].
  rewrite Z.mul_0_l, Z.mul_1_r.
  destruct (0 <=? a) eqn:E.
  - apply Z.leb_le in E. symmetry. apply Z.quot_div_nonneg; lia.
  - apply Z.leb_gt in E.
    rewrite <- (Z.opp_involutive a) at 2.
    rewrite Z.quot_opp_l by lia. f_equal. symmetry.
    apply Z.quot_div_nonneg; lia.
Qed.

Lemma int_above_minus_one (x : Q) : (-1 < x)%Q -> 0 <= Py.int x.
Proof.
  destruct x as [a b]. rewrite int_quot. unfold Qlt. cbn [Qnum Qden].
  intros H.
  destruct (Z.le_gt_cases 0 a) as [Ha | Ha].
  - apply Z.quot_pos; lia.
  - assert (E : Z.quot a (Z.pos b) = 0) by (apply Z.quot_small_iff; lia).
    rewrite E. lia.
Qed.

Example int_truncates :
  Py.int (7 # 2) = 3 /\ Py.int (-7 # 2) = -3 /\ Py.int (-1 # 2) = 0.
Proof. repeat split. Qed.



Example slice_clamps :
  Py.slice 1 9 [10; 20; 30; 40] = [20; 30; 40]
  /\ Py.slice 5 9 [10; 20; 30; 40] = []
  /\ Py.slice 3 1 [10; 20; 30; 40] = [].
Proof. repeat split. Qed.

Example slice_from_the_end :
  Py.slice (-1) 3 [10; 20; 30; 40] = []
  /\ between (-1) 3 [10; 20; 30; 40] = [10; 20; 30].
Proof. repeat split. Qed.


(** ** Normalisation *)

Lemma fold_min_spec (ps : list Z) : forall p,
  fold_left Z.min ps p ∈ p :: ps /\
  Forall (fun q => fold_left Z.min ps p <= q) (p :: ps).
Proof.
  induction ps as [| a ps IH]; intros p; cbn [fold_left].
  - split; [left | repeat constructor; lia].
  - destruct (IH (Z.min p a)) as [Hin Hall]. split.
    + apply elem_of_cons in Hin as [E | Hin].
      * rewrite E. destruct (Z.min_spec p a) as [[_ ->] | [_ ->]];
          [left | right; left].
      * right; right; exact Hin.
    + inversion Hall as [| ? ? Hhd Htl]; subst.
      constructor; [lia |]. constructor; [lia | exact Htl].
Qed.

Lemma fold_max_spec (ps : list Z) : forall p,
  fold_left Z.max ps p ∈ p :: ps /\
  Forall (fun q => q <= fold_left Z.max ps p) (p :: ps).
Proof.
  induction ps as [| a ps IH]; intros p; cbn [fold_left].
  - split; [left | repeat constructor; lia].
  - destruct (IH (Z.max p a)) as [Hin Hall]. split.
    + apply elem_of_cons in Hin as [E | Hin].
      * rewrite E. destruct (Z.max_spec p a) as [[_ ->] | [_ ->]];
          [right; left | left].
      * right; right; exact Hin.
    + inversion Hall as [| ? ? Hhd Htl]; subst.
      constructor; [lia |]. constructor; [lia | exact Htl].
Qed.

Lemma np_min_spec (px : list (list Z)) (lo : Z) :
  Py.np_min px = Ok lo ->
  lo ∈ concat px /\ Forall (fun p => lo <= p) (concat px).
Proof.
  unfold Py.np_min, Py.reduce. destruct (concat px) as [| p ps]; [discriminate |].
  intros [= <-]. apply fold_min_spec.
Qed.

Lemma np_max_spec (px : list (list Z)) (hi : Z) :
  Py.np_max px = Ok hi ->
  hi ∈ concat px /\ Forall (fun p => p <= hi) (concat px).
Proof.
  unfold Py.np_max, Py.reduce. destruct (concat px) as [| p ps]; [discriminate |].
  intros [= <-]. apply fold_max_spec.
Qed.

Lemma Forall_concat {A : Type} (P : A -> Prop) (ls : list (list A)) :
  Forall (Forall P) ls <-> Forall P (concat ls).
Proof.
  induction ls as [| l ls IH]; cbn [concat].
  - split; constructor.
  - rewrite Forall_cons, Forall_app, IH. reflexivity.
Qed.

Lemma normalize_range (bits : Z) (px : list (list Z)) (lo hi : Z) :
  samples_in_range bits px ->
  Py.np_min px = Ok lo -> Py.np_max px = Ok hi -> lo < hi ->
  normalize bits px =
    Ok (map (map (fun p => Py.Finite (inject_Z (p - lo) / inject_Z (hi - lo)))) px).
Proof.
  intros Hrange Hmin Hmax Hlt. unfold normalize. rewrite Hmin, Hmax.
  f_equal. rewrite map_map.
  destruct (np_min_spec _ _ Hmin) as [Hlo_in Hlo].
  destruct (np_max_spec _ _ Hmax) as [Hhi_in Hhi].
  apply Forall_concat in Hrange.
  assert (Rlo : 0 <= lo < 2 ^ bits)
    by (rewrite Forall_forall in Hrange; apply Hrange, Hlo_in).
  assert (Rhi : 0 <= hi < 2 ^ bits)
    by (rewrite Forall_forall in Hrange; apply Hrange, Hhi_in).
  assert (Erange : Py.sub bits hi lo = hi - lo)
    by (unfold Py.sub, Py.wrap; apply Z.mod_small; lia).
  rewrite Erange.
  apply map_ext_in. intros row Hrow. rewrite map_map.
  apply map_ext_in. intros p Hp.
  assert (Hin : p ∈ concat px).
  { apply list_elem_of_In, in_concat. exists row. split; assumption. }
  rewrite Forall_forall in Hrange, Hlo, Hhi.
  specialize (Hrange p Hin). specialize (Hlo p Hin). specialize (Hhi p Hin).
  replace (Py.sub bits p lo) with (p - lo)
    by (unfold Py.sub, Py.wrap; symmetry; apply Z.mod_small; lia).
  unfold Py.true_divide.
  destruct (hi - lo =? 0) eqn:E; [apply Z.eqb_eq in E; lia | reflexivity].
Qed.


Lemma normalize_constant (bits : Z) (px : list (list Z)) (c : Z) :
  Py.np_min px = Ok c -> Py.np_max px = Ok c ->
  normalize bits px = Ok (map (map (fun _ => Py.NaN)) px).
Proof.
  intros Hmin Hmax. unfold normalize. rewrite Hmin, Hmax. f_equal.
  rewrite map_map.
  destruct (np_min_spec _ _ Hmin) as [_ Hlo].
  destruct (np_max_spec _ _ Hmax) as [_ Hhi].
  apply map_ext_in. intros row Hrow. rewrite map_map.
  apply map_ext_in. intros p Hp.
  assert (Hin : p ∈ concat px).
  { apply list_elem_of_In, in_concat. exists row. split; assumption. }
  rewrite Forall_forall in Hlo, Hhi.
  specialize (Hlo p Hin). specialize (Hhi p Hin).
  replace p with c by lia.
  unfold Py.sub, Py.wrap. rewrite Z.sub_diag, Zmod_0_l.
  reflexivity.
Qed.

(** ** The callbacks, equation by equation *)

Section Props.
Context `{ext : Externals}.

Lemma imagePressed_outside (e : MouseEvent) (s : DiffractionWindow) :
  inaxes e = false -> imagePressed e s = (s, [], Ok tt).
Proof. intros H. unfold imagePressed. rewrite H. reflexivity. Qed.

Lemma imagePressed_start (e : MouseEvent) (s : DiffractionWindow) :
  inaxes e = true -> start_point s = None ->
  imagePressed e s =
    (mkWindow (image s) (Some (xdata e, ydata e)) (rect_patch s) None
       (patch_objects s)
       (match last_rect_patch s with
        | Some p => filter (fun q => q <> p) (axes_patches s)
        | None => axes_patches s
        end)
       (axes_image s) (canvas_visible s)
       ("Rect: x0=" ++ Py.str (Py.int (xdata e)) ++ " y0=" ++ Py.str (Py.int (ydata e)))
       false,
     [], Ok tt).
Proof.
  intros Hin Hsp. destruct s as [im sp rp lrp objs axp axi vis lbl en].
  cbn in Hsp; subst sp. unfold imagePressed. rewrite Hin.
  destruct lrp; run_M; reflexivity.
Qed.

Lemma imagePressed_commit (e : MouseEvent) (s : DiffractionWindow) (x0 y0 : Q) :
  inaxes e = true -> start_point s = Some (x0, y0) ->
  imagePressed e s =
    (mkWindow (image s) None None (Some (length (patch_objects s)))
       (patch_objects s ++
          [mkRectangle x0 y0 (xdata e - x0) (ydata e - y0) 2])
       (match rect_patch s with
        | Some q => filter (fun q' => q' <> q)
                      (axes_patches s ++ [length (patch_objects s)])
        | None => axes_patches s ++ [length (patch_objects s)]
        end)
       (axes_image s) (canvas_visible s) (coord_label s) true,
     [], Ok tt).
Proof.
  intros Hin Hsp. destruct s as [im sp rp lrp objs axp axi vis lbl en].
  cbn in Hsp; subst sp. unfold imagePressed. rewrite Hin.
  destruct rp; run_M; reflexivity.
Qed.

Lemma imageOnMotion_ignored (e : MouseEvent) (s : DiffractionWindow) :
  inaxes e = false \/ start_point s = None -> imageOnMotion e s = (s, [], Ok tt).
Proof.
  intros H. destruct s as [im sp rp lrp objs axp axi vis lbl en].
  unfold imageOnMotion. run_M.
  destruct (inaxes e); [| reflexivity].
  destruct H as [H | H]; [discriminate |]. cbn in H. subst sp. reflexivity.
Qed.

Lemma imageOnMotion_preview (e : MouseEvent) (s : DiffractionWindow) (x0 y0 : Q) :
  inaxes e = true -> start_point s = Some (x0, y0) ->
  imageOnMotion e s =
    (mkWindow (image s) (start_point s)
       (match rect_patch s with
        | Some q => Some q
        | None => Some (length (patch_objects s))
        end)
       (last_rect_patch s)
       (match rect_patch s with
        | Some q => alter (fun r => set_bounds r x0 y0 (xdata e - x0) (ydata e - y0))
                      q (patch_objects s)
        | None => patch_objects s ++
                    [mkRectangle x0 y0 (xdata e - x0) (ydata e - y0) 1]
        end)
       (match rect_patch s with
        | Some q => axes_patches s
        | None => axes_patches s ++ [length (patch_objects s)]
        end)
       (axes_image s) (canvas_visible s)
       ("Rect: x0=" ++ Py.str (Py.int x0) ++ " y0=" ++ Py.str (Py.int y0)
        ++ ", x1=" ++ Py.str (Py.int (xdata e))
        ++ ", y1=" ++ Py.str (Py.int (ydata e)))
       (showProjBtn_enabled s),
     [], Ok tt).
Proof.
  intros Hin Hsp. destruct s as [im sp rp lrp objs axp axi vis lbl en].
  cbn in Hsp; subst sp. unfold imageOnMotion. run_M. rewrite Hin.
  destruct rp; run_M; reflexivity.
Qed.

Lemma imageReleased_inert (e : MouseEvent) (s : DiffractionWindow) :
  imageReleased e s = (s, [], Ok tt).
Proof. unfold imageReleased. destruct (inaxes e); reflexivity. Qed.

Lemma browseFile_cancelled (s : DiffractionWindow) :
  browseFile "" s = (s, [print "No file selected."], Ok tt).
Proof. reflexivity. Qed.

Lemma browseFile_decode_error (file_path : string) (s : DiffractionWindow) (e : exn) :
  file_path <> ""%string -> decode file_path = Raise e ->
  browseFile file_path s = (s, [], Raise e).
Proof.
  intros Hp Hd. unfold browseFile.
  destruct (String.eqb_spec file_path ""); [contradiction |].
  run_M. rewrite Hd. reflexivity.
Qed.

Lemma browseFile_gray (file_path : string) (s : DiffractionWindow)
      (bits : Z) (px : list (list Z)) :
  file_path <> ""%string -> decode file_path = Ok (Array2 bits px) ->
  browseFile file_path s =
    match normalize bits px with
    | Ok buf =>
        (mkWindow (Some (Array2 bits px)) (start_point s) (rect_patch s)
           (last_rect_patch s) (patch_objects s) [] (Some (GrayImage buf))
           true "Mouse: " false,
         [], Ok tt)
    | Raise e =>
        (mkWindow (Some (Array2 bits px)) (start_point s) (rect_patch s)
           (last_rect_patch s) (patch_objects s) [] None
           (canvas_visible s) (coord_label s) (showProjBtn_enabled s),
         [], Raise e)
    end.
Proof.
  intros Hp Hd. unfold browseFile.
  destruct (String.eqb_spec file_path ""); [contradiction |].
  run_M. rewrite Hd. run_M. destruct (normalize bits px); reflexivity.
Qed.

Lemma browseFile_multi (file_path : string) (s : DiffractionWindow)
      (bits : Z) (px : list (list (list Z))) :
  file_path <> ""%string -> decode file_path = Ok (Array3 bits px) ->
  browseFile file_path s =
    (mkWindow (Some (Array3 bits px)) (start_point s) (rect_patch s)
       (last_rect_patch s) (patch_objects s) [] (Some (RawImage (Array3 bits px)))
       true "Mouse: " false,
     [], Ok tt).
Proof.
  intros Hp Hd. unfold browseFile.
  destruct (String.eqb_spec file_path ""); [contradiction |].
  run_M. rewrite Hd. reflexivity.
Qed.


Lemma show_projection_noop (s : DiffractionWindow) :
  image s = None \/ last_rect_patch s = None ->
  show_projection s = (s, [], Ok tt).
Proof.
  intros H. destruct s as [im sp rp lrp objs axp axi vis lbl en].
  cbn in H. unfold show_projection. run_M.
  destruct H as [-> | ->]; [reflexivity |]. destruct im; reflexivity.
Qed.

Lemma show_projection_gray (s : DiffractionWindow) (bits : Z)
      (px : list (list Z)) (p : nat) (r : Rectangle) (x0 x1 y0 y1 : Z) :
  image s = Some (Array2 bits px) ->
  last_rect_patch s = Some p ->
  patch_objects s !! p = Some r ->
  crop_bounds r = (x0, x1, y0, y1) ->
  show_projection s =
    (s, [PlotDialog_exec (Py.np_sum_axis1 (Py.slice2 y0 y1 x0 x1 px))], Ok tt).
Proof.
  intros Him Hlrp Hobj Hb. destruct s as [im sp rp lrp objs axp axi vis lbl en].
  cbn in Him, Hlrp, Hobj. subst im lrp.
  unfold show_projection. run_M. rewrite Hobj, Hb. reflexivity.
Qed.

Lemma show_projection_multi (s : DiffractionWindow) (bits : Z)
      (px : list (list (list Z))) (p : nat) (r : Rectangle) (x0 x1 y0 y1 : Z) :
  image s = Some (Array3 bits px) ->
  last_rect_patch s = Some p ->
  patch_objects s !! p = Some r ->
  crop_bounds r = (x0, x1, y0, y1) ->
  show_projection s =
    match Image_fromarray_convert_L (Array3 bits px) with
    | Ok gray =>
        (s, [PlotDialog_exec (Py.np_sum_axis1 (Py.slice2 y0 y1 x0 x1 gray))], Ok tt)
    | Raise e => (s, [], Raise e)
    end.
Proof.
  intros Him Hlrp Hobj Hb. destruct s as [im sp rp lrp objs axp axi vis lbl en].
  cbn in Him, Hlrp, Hobj. subst im lrp.
  unfold show_projection. run_M.
  destruct (Image_fromarray_convert_L (Array3 bits px)); [| reflexivity].
  rewrite Hobj, Hb. reflexivity.
Qed.

Lemma show_projection_state (s : DiffractionWindow) :
  state_of (show_projection s) = s.
Proof.
  destruct (image s) as [a |] eqn:Him;
    [| rewrite show_projection_noop by (left; exact Him); reflexivity].
  destruct (last_rect_patch s) as [p |] eqn:Hlrp;
    [| rewrite show_projection_noop by (right; exact Hlrp); reflexivity].
  destruct s as [im sp rp lrp objs axp axi vis lbl en].
  cbn in Him, Hlrp. subst im lrp. unfold show_projection. run_M.
  destruct a as [bits px | bits px].
  - destruct (objs !! p) as [r |]; [| reflexivity].
    destruct (crop_bounds r) as [[[x0 x1] y0] y1]. reflexivity.
  - destruct (Image_fromarray_convert_L (Array3 bits px)); [| reflexivity].
    destruct (objs !! p) as [r |]; [| reflexivity].
    destruct (crop_bounds r) as [[[x0 x1] y0] y1]. reflexivity.
Qed.

Lemma invariant_init : invariant init.
Proof.
  constructor; cbn; try discriminate; try congruence.
  intros q Hq. apply elem_of_nil in Hq. contradiction.
Qed.

Lemma invariant_browseFile (file_path : string) (s : DiffractionWindow) :
  invariant s -> invariant (state_of (browseFile file_path s)).
Proof.
  intros [I1 I2 I3 I4 I5 I6 I9 I7 I8].
  destruct (String.eqb_spec file_path "") as [-> | Hp].
  { rewrite browseFile_cancelled. constructor; assumption. }
  destruct (decode file_path) as [[bits px | bits px] | e] eqn:Hd.
  - rewrite (browseFile_gray _ _ _ _ Hp Hd).
    destruct (normalize bits px); constructor; cbn; try assumption;
      try discriminate; try congruence;
      intros q Hq; try intros Hq'; exfalso; eapply not_elem_of_nil; eassumption.
  - rewrite (browseFile_multi _ _ _ _ Hp Hd).
    constructor; cbn; try assumption; try discriminate; try congruence;
      intros q Hq; try intros Hq'; exfalso; eapply not_elem_of_nil; eassumption.
  - rewrite (browseFile_decode_error _ _ _ Hp Hd). constructor; assumption.
Qed.

Lemma invariant_imagePressed (e : MouseEvent) (s : DiffractionWindow) :
  invariant s -> canvas_visible s = true ->
  invariant (state_of (imagePressed e s)).
Proof.
  intros I Hvis.
  destruct (inaxes e) eqn:Hin;
    [| rewrite (imagePressed_outside _ _ Hin); exact I].
  destruct I as [I1 I2 I3 I4 I5 I6 I9 I7 I8].
  destruct (start_point s) as [[x0 y0] |] eqn:Hsp.
  - rewrite (imagePressed_commit _ _ _ _ Hin Hsp).
    assert (Hlast : last_rect_patch s = None).
    { destruct (last_rect_patch s) eqn:E; [| reflexivity].
      exfalso. assert (Hc : Some (x0, y0) = None) by (apply I4; discriminate).
      discriminate Hc. }
    constructor; cbn; try assumption; try discriminate; try congruence.
    + intros q' Hq'. left. f_equal. symmetry.
      assert (Hq : q' ∈ axes_patches s ++ [length (patch_objects s)] /\
                   (forall q, rect_patch s = Some q -> q' <> q)).
      { destruct (rect_patch s) as [q |].
        - apply list_elem_of_filter in Hq' as [Hne Hq'].
          split; [exact Hq' | intros ? [= <-]; exact Hne].
        - split; [exact Hq' | discriminate]. }
      destruct Hq as [Hq Hne]. apply elem_of_app in Hq as [Hq | Hq].
      * destruct (I6 _ Hq) as [E | E]; [congruence |].
        exfalso. exact (Hne _ E eq_refl).
      * apply list_elem_of_singleton in Hq. exact Hq.
    + intros p [= <-]. rewrite length_app. cbn. lia.
  - rewrite (imagePressed_start _ _ Hin Hsp).
    constructor; cbn; try assumption; try discriminate; try congruence.
    intros q Hq. right.
    destruct (last_rect_patch s) as [p |] eqn:Hlast.
    + apply list_elem_of_filter in Hq as [Hne Hq].
      destruct (I6 _ Hq) as [E | E]; [congruence | exact E].
    + destruct (I6 _ Hq) as [E | E]; [congruence | exact E].
Qed.

Lemma invariant_imageOnMotion (e : MouseEvent) (s : DiffractionWindow) :
  invariant s -> invariant (state_of (imageOnMotion e s)).
Proof.
  intros I.
  destruct (inaxes e) eqn:Hin;
    [| rewrite imageOnMotion_ignored by (left; exact Hin); exact I].
  destruct (start_point s) as [[x0 y0] |] eqn:Hsp;
    [| rewrite imageOnMotion_ignored by (right; exact Hsp); exact I].
  rewrite (imageOnMotion_preview _ _ _ _ Hin Hsp).
  destruct I as [I1 I2 I3 I4 I5 I6 I9 I7 I8].
  constructor; cbn; try assumption; try discriminate; try congruence.
  - intros q' Hq'. destruct (rect_patch s) as [q |] eqn:Hrp.
    + apply I6, Hq'.
    + apply elem_of_app in Hq' as [Hq' | Hq'].
      * destruct (I6 _ Hq') as [E | E]; [left; exact E | congruence].
      * apply list_elem_of_singleton in Hq'. right. congruence.
  - intros p Hp Hq'. apply (I9 _ Hp). destruct (rect_patch s) as [q |] eqn:Hrp.
    + exact Hq'.
    + apply elem_of_app in Hq' as [Hq' | Hq']; [exact Hq' |].
      apply list_elem_of_singleton in Hq'. specialize (I7 _ Hp). lia.
  - intros p Hp. specialize (I7 _ Hp). destruct (rect_patch s).
    + rewrite length_alter. exact I7.
    + rewrite length_app. lia.
  - intros p Hp. destruct (rect_patch s) as [q |] eqn:Hrp.
    + rewrite length_alter. apply I8. exact Hp.
    + injection Hp as <-. rewrite length_app. cbn. lia.
Qed.

Lemma bind_get {A : Type} (k : DiffractionWindow -> M A) (s : DiffractionWindow) :
  bind get k s = k s s.
Proof. unfold bind, get. destruct (k s s) as [[s' out] r]. reflexivity. Qed.

Lemma step_eq (s : DiffractionWindow) (a : UserAction) :
  step s a =
    match a with
    | SelectImage file_path => state_of (browseFile file_path s)
    | ButtonPress e =>
        if canvas_visible s then state_of (imagePressed e s) else s
    | MotionNotify e =>
        if canvas_visible s then state_of (imageOnMotion e s) else s
    | ButtonRelease e => s
    | ClickShowProjection => s
    end.
Proof.
  unfold step, dispatch. rewrite bind_get. destruct a as [file_path | e | e | e |].
  - reflexivity.
  - destruct (canvas_visible s); reflexivity.
  - destruct (canvas_visible s); reflexivity.
  - destruct (canvas_visible s); [rewrite imageReleased_inert |]; reflexivity.
  - destruct (showProjBtn_enabled s); [apply show_projection_state | reflexivity].
Qed.

Lemma invariant_step (s : DiffractionWindow) (a : UserAction) :
  invariant s -> invariant (step s a).
Proof.
  intros I. rewrite step_eq. destruct a as [file_path | e | e | e |]; try exact I.
  - apply invariant_browseFile, I.
  - destruct (canvas_visible s) eqn:Hvis; [| exact I].
    apply invariant_imagePressed; assumption.
  - destruct (canvas_visible s); [| exact I].
    apply invariant_imageOnMotion, I.
Qed.

Theorem reachable_invariant (s : DiffractionWindow) :
  reachable s -> invariant s.
Proof.
  induction 1 as [| s a _ IH]; [apply invariant_init | apply invariant_step, IH].
Qed.


(** The reference in [last_rect_patch] always leads to a rectangle. *)
Lemma committed_rectangle_defined (s : DiffractionWindow) (p : nat) :
  reachable s -> last_rect_patch s = Some p ->
  exists r, patch_objects s !! p = Some r /\ committed_rectangle s = Some r.
Proof.
  intros Hs Hp. pose proof (reachable_invariant s Hs) as I.
  destruct (lookup_lt_is_Some_2 (patch_objects s) p (inv_last_ref s I p Hp))
    as [r Hr].
  exists r. split; [exact Hr |]. unfold committed_rectangle. rewrite Hp. exact Hr.
Qed.

Lemma reachable_run (l : list UserAction) : forall s : DiffractionWindow,
  reachable s -> reachable (run s l).
Proof.
  induction l as [| a l IH]; intros s Hs; [exact Hs |].
  apply (IH (step s a)). constructor. exact Hs.
Qed.

Lemma crop_bounds_ordered (r : Rectangle) : ordered (crop_bounds r).
Proof.
  unfold crop_bounds, get_points, ordered.
  split; apply int_monotone;
    (eapply Qle_trans; [apply Q.le_min_l | apply Q.le_max_l]).
Qed.

(** ** Clicks on the image *)




(** ** Projection *)

(** C7: with no image, or with no committed rectangle, [show_projection]
    returns at once: it raises nothing, shows no dialog, prints nothing,
    and leaves every attribute of the window as it was. *)
Theorem show_projection_without_selection (s : DiffractionWindow) :
  image s = None \/ last_rect_patch s = None ->
  show_projection s = (s, [], Ok tt).
Proof. apply show_projection_noop. Qed.


(** C8: on an image with more than two dimensions, [show_projection]
    first converts the array to a single-band luminance image; the sums
    handed to the dialog are the row sums of the slice of that converted
    array, and when the conversion raises nothing is summed at all. *)
Theorem projection_of_multichannel (s : DiffractionWindow) (bits : Z)
        (px : list (list (list Z))) (p : nat) (r : Rectangle) (x0 x1 y0 y1 : Z) :
  image s = Some (Array3 bits px) ->
  last_rect_patch s = Some p ->
  patch_objects s !! p = Some r ->
  crop_bounds r = (x0, x1, y0, y1) ->
  (forall gray, Image_fromarray_convert_L (Array3 bits px) = Ok gray ->
     show_projection s =
       (s, [PlotDialog_exec (map Py.sum (map (Py.slice x0 x1) (Py.slice y0 y1 gray)))],
        Ok tt))
  /\ (forall e, Image_fromarray_convert_L (Array3 bits px) = Raise e ->
        show_projection s = (s, [], Raise e)).
Proof.
  intros Him Hlrp Hobj Hb.
  pose proof (show_projection_multi s bits px p r x0 x1 y0 y1 Him Hlrp Hobj Hb) as E.
  split; [intros gray Hc | intros e Hc]; rewrite Hc in E; exact E.
Qed.

(** C10: when [show_projection] has shown the dialog, the window is as it
    was before: the image, the pending start point, the reference to the
    committed rectangle and the rectangle object itself are unchanged
    (the sums were computed on a copy of the image). *)
Theorem projection_is_read_only (s : DiffractionWindow) (data : list Z) :
  effects_of (show_projection s) = [PlotDialog_exec data] ->
  state_of (show_projection s) = s
  /\ image (state_of (show_projection s)) = image s
  /\ start_point (state_of (show_projection s)) = start_point s
  /\ last_rect_patch (state_of (show_projection s)) = last_rect_patch s
  /\ committed_rectangle (state_of (show_projection s)) = committed_rectangle s.
Proof.
  intros _. rewrite show_projection_state. repeat split.
Qed.

(** ** Loading *)



(** What a load that succeeds does to the window: the image is replaced,
    the axes are cleared and show the new image, the canvas is shown, the
    label is reset and the button is disabled; [start_point],
    [rect_patch] and [last_rect_patch] are not assigned. *)
Lemma browseFile_success (file_path : string) (s : DiffractionWindow) :
  file_path <> ""%string ->
  result_of (browseFile file_path s) = Ok tt ->
  let s' := state_of (browseFile file_path s) in
  decode file_path = Ok (default (Array2 0 []) (image s'))
  /\ axes_patches s' = []
  /\ canvas_visible s' = true
  /\ coord_label s' = "Mouse: "%string
  /\ showProjBtn_enabled s' = false
  /\ start_point s' = start_point s
  /\ rect_patch s' = rect_patch s
  /\ last_rect_patch s' = last_rect_patch s
  /\ patch_objects s' = patch_objects s.
Proof.
  intros Hp. destruct (decode file_path) as [[bits px | bits px] | e] eqn:Hd.
  - rewrite (browseFile_gray _ _ _ _ Hp Hd).
    destruct (normalize bits px); [| discriminate]. intros _. cbn. tauto.
  - rewrite (browseFile_multi _ _ _ _ Hp Hd). intros _. cbn. tauto.
  - rewrite (browseFile_decode_error _ _ _ Hp Hd). discriminate.
Qed.

(** A constant image: every quotient is 0/0. *)
Lemma browseFile_constant (file_path : string) (s : DiffractionWindow)
      (bits : Z) (px : list (list Z)) (c : Z) :
  file_path <> ""%string ->
  decode file_path = Ok (Array2 bits px) ->
  Py.np_min px = Ok c -> Py.np_max px = Ok c ->
  result_of (browseFile file_path s) = Ok tt
  /\ axes_image (state_of (browseFile file_path s))
     = Some (GrayImage (map (map (fun _ => Py.NaN)) px)).
Proof.
  intros Hp Hd Hmin Hmax.
  rewrite (browseFile_gray _ _ _ _ Hp Hd).
  rewrite (normalize_constant _ _ _ Hmin Hmax). split; reflexivity.
Qed.

(** ** The selection gesture *)

(** X19: the button is only enabled when it can be used: in every state
    the window can reach, while the button is enabled there is an image,
    there is a committed rectangle, and no selection is in progress. *)
Lemma enabled_only_when_ready (s : DiffractionWindow) :
  reachable s -> showProjBtn_enabled s = true ->
  image s <> None /\ last_rect_patch s <> None /\ start_point s = None.
Proof.
  intros Hs Hen. destruct (reachable_invariant s Hs) as [I1 I2 I3 I4 I5 I6 I9 I7 I8].
  split; [apply I1, I2, Hen | split; [apply I3, Hen | apply I4, I3, Hen]].
Qed.

(** X20: only the press that commits a rectangle enables the button: if
    the button is enabled after an action, it was enabled before it or the
    action was a press inside the axes during a selection. *)
Lemma button_transitions (s : DiffractionWindow) (a : UserAction) :
  showProjBtn_enabled (step s a) = true ->
  showProjBtn_enabled s = true
  \/ exists e, a = ButtonPress e /\ inaxes e = true /\ start_point s <> None.
Proof.
  rewrite step_eq. destruct a as [file_path | e | e | e |]; try (left; assumption).
  - destruct (String.eqb_spec file_path "") as [-> | Hp];
      [rewrite browseFile_cancelled; left; assumption |].
    destruct (decode file_path) as [[bits px | bits px] | ex] eqn:Hd.
    + rewrite (browseFile_gray _ _ _ _ Hp Hd).
      destruct (normalize bits px); cbn; [discriminate | left; assumption].
    + rewrite (browseFile_multi _ _ _ _ Hp Hd). cbn. discriminate.
    + rewrite (browseFile_decode_error _ _ _ Hp Hd). left; assumption.
  - destruct (canvas_visible s); [| left; assumption].
    destruct (inaxes e) eqn:Hin;
      [| rewrite (imagePressed_outside _ _ Hin); left; assumption].
    destruct (start_point s) as [[x0 y0] |] eqn:Hsp.
    + intros _. right. exists e. repeat split; [exact Hin | discriminate].
    + rewrite (imagePressed_start _ _ Hin Hsp). cbn. discriminate.
  - destruct (canvas_visible s); [| left; assumption].
    destruct (inaxes e) eqn:Hin;
      [| rewrite imageOnMotion_ignored by (left; exact Hin); left; assumption].
    destruct (start_point s) as [[x0 y0] |] eqn:Hsp;
      [| rewrite imageOnMotion_ignored by (right; exact Hsp); left; assumption].
    rewrite (imageOnMotion_preview _ _ _ _ Hin Hsp). cbn. left; assumption.
Qed.



End Props.

(** ** The claims at the sample files *)

Section AtSamples.

Import Sample.
Local Existing Instance files.

Lemma sample_reachable (l : list UserAction) : reachable (run_sample l).
Proof. apply reachable_run. constructor. Qed.

(** C1: what the code does with a constant image.  The file "flat.png"
    decodes to a 2-D array whose samples are all 7; [browseFile] raises
    nothing, and every element of the buffer that it hands to [imshow]
    is NaN (the quotient 0/0): no constant fallback buffer is put in its
    place. *)
Theorem constant_image_displays_nan :
  decode "flat.png" = Ok (Array2 8 flat)
  /\ Py.np_min flat = Ok 7 /\ Py.np_max flat = Ok 7
  /\ result_of (browseFile "flat.png" init) = Ok tt
  /\ axes_image (state_of (browseFile "flat.png" init))
     = Some (GrayImage [[Py.NaN; Py.NaN]; [Py.NaN; Py.NaN]]).
Proof.
  assert (Hd : decode "flat.png" = Ok (Array2 8 flat)) by reflexivity.
  split; [exact Hd |]. split; [reflexivity |]. split; [reflexivity |].
  apply (browseFile_constant "flat.png" init 8 flat 7);
    [discriminate | exact Hd | reflexivity | reflexivity].
Qed.

(** C4: what the code does when a file is opened after a selection.
    After load, press, press, load the window holds an image and
    [last_rect_patch] still refers to the rectangle committed on the
    previous image, while the button is disabled: the button is not
    enabled although both exist.  After load, press, load the start point
    of the abandoned selection is still pending, so that the first press
    on the new image commits a rectangle and enables the button. *)
Theorem reload_keeps_selection_attributes :
  reachable reloaded_after_commit
  /\ image reloaded_after_commit = Some (Array2 8 tiny)
  /\ committed_rectangle reloaded_after_commit = Some (mkRectangle 1 1 2 2 2)
  /\ showProjBtn_enabled reloaded_after_commit = false
  /\ reachable reloaded_while_pending
  /\ showProjBtn_enabled reloaded_while_pending = false
  /\ showProjBtn_enabled (step reloaded_while_pending (ButtonPress (at_point 0 0)))
     = true
  /\ committed_rectangle (step reloaded_while_pending (ButtonPress (at_point 0 0)))
     = Some (mkRectangle 1 1 (-1) (-1) 2).
Proof.
  split; [apply sample_reachable |].
  split; [reflexivity |]. split; [reflexivity |]. split; [reflexivity |].
  split; [apply sample_reachable |].
  split; [reflexivity |]. split; reflexivity.
Qed.

(** C5: what the code does on a load that succeeds while a selection is
    in progress.  The image is replaced, the axes no longer draw any
    rectangle, the label reads "Mouse: " and the button is disabled; but
    [start_point] still holds the point clicked on the previous image and
    [rect_patch] still refers to the preview rectangle, and after a
    committed selection [last_rect_patch] still refers to the committed
    rectangle. *)
Theorem reload_keeps_pending_start_point :
  result_of (browseFile "tiny.png" pending) = Ok tt
  /\ image reloaded_while_pending = Some (Array2 8 tiny)
  /\ axes_patches reloaded_while_pending = []
  /\ coord_label reloaded_while_pending = "Mouse: "%string
  /\ showProjBtn_enabled reloaded_while_pending = false
  /\ start_point reloaded_while_pending = Some (1%Q, 1%Q)
  /\ gesture reloaded_while_pending = Pending (1%Q, 1%Q)
  /\ axes_patches reloaded_with_preview = []
  /\ rect_patch reloaded_with_preview = Some 0%nat
  /\ axes_patches reloaded_after_commit = []
  /\ last_rect_patch reloaded_after_commit = Some 0%nat.
Proof. repeat split. Qed.



(** *** The theorems at concrete inputs *)

Lemma show_projection_without_selection_witness :
  show_projection loaded = (loaded, [], Ok tt).
Proof.
  apply (show_projection_without_selection loaded). right. reflexivity.
Defined.


Lemma projection_of_multichannel_witness :
  show_projection selected_rgb = (selected_rgb, [PlotDialog_exec [255; 144]], Ok tt).
Proof.
  destruct (projection_of_multichannel selected_rgb 8 rgb 0%nat
              (mkRectangle 0 0 3 2 2) 0 3 0 2)
    as [H1 _]; [reflexivity | reflexivity | reflexivity | reflexivity |].
  exact (H1 (map (map luma601) rgb) eq_refl).
Defined.

(** The sums of the raw channel values of the same rows would be others. *)
Example channel_sums_differ :
  map (fun row => Py.sum (concat row)) rgb = [765; 450]
  /\ map Py.sum (map (map luma601) rgb) = [255; 144].
Proof. split; reflexivity. Qed.

Lemma projection_is_read_only_witness :
  state_of (show_projection committed) = committed
  /\ image (state_of (show_projection committed)) = image committed
  /\ start_point (state_of (show_projection committed)) = start_point committed
  /\ last_rect_patch (state_of (show_projection committed)) = last_rect_patch committed
  /\ committed_rectangle (state_of (show_projection committed))
     = committed_rectangle committed.
Proof.
  apply (projection_is_read_only committed [11; 19]). reflexivity.
Defined.




End AtSamples.

(** * Further properties *)

(** ** Motions, presses and loads *)

Section Gesture.
Context `{ext : Externals}.

Lemma alter_twice {A : Type} (f g : A -> A) (l : list A) : forall i : nat,
  alter f i (alter g i l) = alter (fun x => f (g x)) i l.
Proof.
  induction l as [| x l IH]; intros [| i]; cbn; [reflexivity .. |].
  f_equal. apply IH.
Qed.

(** X1: whatever the window, a motion after a motion leaves it as the
    second motion alone would: of a drag only the last pointer position
    inside the axes matters (the preview rectangle is one object that is
    moved, not one object per event). *)
Theorem last_motion_wins (e1 e2 : MouseEvent) (s : DiffractionWindow) :
  inaxes e2 = true ->
  state_of (imageOnMotion e2 (state_of (imageOnMotion e1 s)))
  = state_of (imageOnMotion e2 s).
Proof.
  intros H2.
  destruct (start_point s) as [[x0 y0] |] eqn:Hsp;
    [| rewrite (imageOnMotion_ignored e1 s) by (right; exact Hsp); reflexivity].
  destruct (inaxes e1) eqn:H1;
    [| rewrite (imageOnMotion_ignored e1 s) by (left; exact H1); reflexivity].
  rewrite (imageOnMotion_preview e1 s x0 y0 H1 Hsp).
  rewrite (imageOnMotion_preview e2 s x0 y0 H2 Hsp).
  unfold state_of at 2. cbn [fst].
  rewrite (imageOnMotion_preview e2 _ x0 y0 H2) by (cbn; exact Hsp).
  unfold state_of. cbn [fst image start_point rect_patch last_rect_patch
    patch_objects axes_patches axes_image canvas_visible coord_label
    showProjBtn_enabled].
  destruct (rect_patch s) as [q |].
  - rewrite alter_twice. reflexivity.
  - replace (length (patch_objects s)) with (length (patch_objects s) + 0)%nat at 2 by lia.
    rewrite alter_app_r. reflexivity.
Qed.

(** X2: between two loads only a press inside the axes moves the
    selection gesture: a motion, a release, a press outside the axes and a
    click on the button leave [start_point] and [last_rect_patch] as they
    were. *)
Theorem only_presses_move_the_gesture (s : DiffractionWindow) (a : UserAction) :
  press_in_axes a = false -> is_load a = false ->
  start_point (step s a) = start_point s
  /\ last_rect_patch (step s a) = last_rect_patch s.
Proof.
  intros Ha Hl. rewrite step_eq.
  destruct a as [file_path | e | e | e |]; try discriminate;
    try (split; reflexivity).
  - cbn in Ha. destruct (canvas_visible s); [| split; reflexivity].
    rewrite (imagePressed_outside _ _ Ha). split; reflexivity.
  - destruct (canvas_visible s); [| split; reflexivity].
    destruct (inaxes e) eqn:Hin;
      [| rewrite imageOnMotion_ignored by (left; exact Hin); split; reflexivity].
    destruct (start_point s) as [[x0 y0] |] eqn:Hsp;
      [| rewrite imageOnMotion_ignored by (right; exact Hsp);
         split; [exact Hsp | reflexivity]].
    rewrite (imageOnMotion_preview _ _ _ _ Hin Hsp).
    split; [exact Hsp | reflexivity].
Qed.

(** X3: only a load changes the image: every other action leaves
    [self.image], the picture on the axes and the visibility of the canvas
    as they were. *)
Theorem only_loads_change_the_image (s : DiffractionWindow) (a : UserAction) :
  is_load a = false ->
  image (step s a) = image s
  /\ axes_image (step s a) = axes_image s
  /\ canvas_visible (step s a) = canvas_visible s.
Proof.
  intros Ha. rewrite step_eq.
  destruct a as [file_path | e | e | e |]; try discriminate;
    try (repeat split; reflexivity).
  - destruct (canvas_visible s) eqn:Hvis; [| repeat split; exact Hvis].
    destruct (inaxes e) eqn:Hin;
      [| rewrite (imagePressed_outside _ _ Hin); repeat split; exact Hvis].
    destruct (start_point s) as [[x0 y0] |] eqn:Hsp.
    + rewrite (imagePressed_commit _ _ _ _ Hin Hsp). repeat split; exact Hvis.
    + rewrite (imagePressed_start _ _ Hin Hsp). repeat split; exact Hvis.
  - destruct (canvas_visible s) eqn:Hvis; [| repeat split; exact Hvis].
    destruct (inaxes e) eqn:Hin;
      [| rewrite imageOnMotion_ignored by (left; exact Hin);
         repeat split; exact Hvis].
    destruct (start_point s) as [[x0 y0] |] eqn:Hsp;
      [| rewrite imageOnMotion_ignored by (right; exact Hsp);
         repeat split; exact Hvis].
    rewrite (imageOnMotion_preview _ _ _ _ Hin Hsp). repeat split; exact Hvis.
Qed.


End Gesture.

(** ** What every reachable state satisfies *)

Section Invariants.
Context `{ext : Externals}.




Lemma nothing_selected_step (s : DiffractionWindow) (a : UserAction) :
  (canvas_visible s = false -> nothing_selected s) ->
  canvas_visible (step s a) = false -> nothing_selected (step s a).
Proof.
  intros IH. rewrite step_eq.
  destruct a as [file_path | e | e | e |]; try exact IH.
  - destruct (String.eqb_spec file_path "") as [-> | Hp];
      [rewrite browseFile_cancelled; exact IH |].
    destruct (decode file_path) as [[bits px | bits px] | ex] eqn:Hd.
    + rewrite (browseFile_gray _ _ _ _ Hp Hd).
      destruct (normalize bits px); [discriminate |].
      cbn. intros Hvis. destruct (IH Hvis) as (H1 & H2 & H3 & H4 & H5 & H6 & H7).
      repeat split; assumption.
    + rewrite (browseFile_multi _ _ _ _ Hp Hd). discriminate.
    + rewrite (browseFile_decode_error _ _ _ Hp Hd). exact IH.
  - destruct (canvas_visible s) eqn:Hvis; [| intros _; exact (IH eq_refl)].
    destruct (inaxes e) eqn:Hin;
      [| rewrite (imagePressed_outside _ _ Hin); cbn; congruence].
    destruct (start_point s) as [[x0 y0] |] eqn:Hsp.
    + rewrite (imagePressed_commit _ _ _ _ Hin Hsp). cbn. congruence.
    + rewrite (imagePressed_start _ _ Hin Hsp). cbn. congruence.
  - destruct (canvas_visible s) eqn:Hvis; [| intros _; exact (IH eq_refl)].
    destruct (inaxes e) eqn:Hin;
      [| rewrite imageOnMotion_ignored by (left; exact Hin); cbn; congruence].
    destruct (start_point s) as [[x0 y0] |] eqn:Hsp;
      [| rewrite imageOnMotion_ignored by (right; exact Hsp); cbn; congruence].
    rewrite (imageOnMotion_preview _ _ _ _ Hin Hsp). cbn. congruence.
Qed.

(** X6: while the canvas is hidden, that is until a load has run to its
    end, nothing can be selected: no start point is pending, no rectangle
    exists or is drawn, the button is disabled and the label reads
    "Mouse: ". *)
Theorem hidden_canvas_selects_nothing (s : DiffractionWindow) :
  reachable s -> canvas_visible s = false -> nothing_selected s.
Proof.
  induction 1 as [| s a Hs IH].
  - intros _. repeat split.
  - apply nothing_selected_step, IH.
Qed.


(** X8: a motion inside the axes during a selection makes [rect_patch]
    refer to a rectangle that spans the start point and the pointer, and
    writes both corners, truncated, to the status label. *)
Theorem motion_previews_the_rectangle (s : DiffractionWindow) (e : MouseEvent)
        (x0 y0 : Q) :
  reachable s -> start_point s = Some (x0, y0) -> inaxes e = true ->
  let s' := state_of (imageOnMotion e s) in
  (exists q r,
     rect_patch s' = Some q
     /\ patch_objects s' !! q = Some r
     /\ (rect_x r, rect_y r) = (x0, y0)
     /\ (rect_width r, rect_height r) = ((xdata e - x0)%Q, (ydata e - y0)%Q))
  /\ coord_label s'
     = ("Rect: x0=" ++ Py.str (Py.int x0) ++ " y0=" ++ Py.str (Py.int y0)
        ++ ", x1=" ++ Py.str (Py.int (xdata e))
        ++ ", y1=" ++ Py.str (Py.int (ydata e)))%string.
Proof.
  intros Hs Hsp Hin s'. pose proof (reachable_invariant s Hs) as I.
  unfold s'. rewrite (imageOnMotion_preview _ _ _ _ Hin Hsp).
  unfold state_of. cbn [fst rect_patch patch_objects coord_label].
  split; [| reflexivity].
  destruct (rect_patch s) as [q |] eqn:Hrp.
  - destruct (lookup_lt_is_Some_2 (patch_objects s) q (inv_preview_ref s I q Hrp))
      as [r Hr].
    exists q, (set_bounds r x0 y0 (xdata e - x0) (ydata e - y0)).
    split; [reflexivity |]. split; [| split; reflexivity].
    rewrite list_lookup_alter_eq, Hr. reflexivity.
  - exists (length (patch_objects s)),
           (mkRectangle x0 y0 (xdata e - x0) (ydata e - y0) 1).
    split; [reflexivity |]. split; [| split; reflexivity].
    apply list_lookup_middle. reflexivity.
Qed.

End Invariants.

(** ** Loading, at the edges *)

Section Loading.
Context `{ext : Externals}.

Lemma normalize_cases (bits : Z) (px : list (list Z)) :
  match concat px with
  | [] => normalize bits px = Raise ValueError
  | _ :: _ =>
      exists lo hi,
        Py.np_min px = Ok lo /\ Py.np_max px = Ok hi
        /\ normalize bits px
           = Ok (map (map (fun p => Py.true_divide (Py.sub bits p lo)
                                      (Py.sub bits hi lo))) px)
  end.
Proof.
  unfold normalize, Py.np_min, Py.np_max, Py.reduce.
  destruct (concat px) as [| p ps]; [reflexivity |].
  eexists _, _. split; [reflexivity |]. split; [reflexivity |].
  f_equal. rewrite map_map. apply map_ext. intros row. apply map_map.
Qed.

(** X9: when the decoder raises, [browseFile] raises the same exception
    before it has touched anything: the window, with the previous image,
    its picture and the selection, is exactly as it was, and nothing is
    printed. *)
Theorem failed_decode_changes_nothing (file_path : string) (s : DiffractionWindow)
        (e : exn) :
  file_path <> ""%string -> decode file_path = Raise e ->
  browseFile file_path s = (s, [], Raise e).
Proof.
  intros Hp Hd. apply browseFile_decode_error; assumption.
Qed.

(** X10: a 2-D array without elements makes [browseFile] raise ValueError
    (from [np.min]) half way: the image is already replaced and the axes
    are already cleared, while the canvas is not shown, the label is not
    reset and the button is not disabled. *)
Theorem empty_array_aborts_the_load (file_path : string) (s : DiffractionWindow)
        (bits : Z) (px : list (list Z)) :
  file_path <> ""%string -> decode file_path = Ok (Array2 bits px) ->
  concat px = [] ->
  browseFile file_path s =
    (mkWindow (Some (Array2 bits px)) (start_point s) (rect_patch s)
       (last_rect_patch s) (patch_objects s) [] None
       (canvas_visible s) (coord_label s) (showProjBtn_enabled s),
     [], Raise ValueError).
Proof.
  intros Hp Hd Hnil. rewrite (browseFile_gray _ _ _ _ Hp Hd).
  pose proof (normalize_cases bits px) as H. rewrite Hnil in H.
  rewrite H. reflexivity.
Qed.


(** X12: for unsigned samples with max > min the normalisation is one
    increasing map applied to every sample, which sends the minimum to 0
    and the maximum to 1: the order of brightness is kept and the whole
    interval [0, 1] is used. *)
Theorem normalization_is_monotone (bits : Z) (px : list (list Z)) (lo hi : Z) :
  samples_in_range bits px ->
  Py.np_min px = Ok lo -> Py.np_max px = Ok hi -> lo < hi ->
  exists f : Z -> Q,
    normalize bits px = Ok (map (map (fun p => Py.Finite (f p))) px)
    /\ (f lo == 0)%Q /\ (f hi == 1)%Q
    /\ (forall p p', p <= p' -> (f p <= f p')%Q)
    /\ (forall p p', p < p' -> (f p < f p')%Q).
Proof.
  intros Hrange Hmin Hmax Hlt.
  exists (fun p => (inject_Z (p - lo) / inject_Z (hi - lo))%Q).
  assert (Hd : (0 < inject_Z (hi - lo))%Q).
  { change 0%Q with (inject_Z 0). rewrite <- Zlt_Qlt. lia. }
  split; [apply normalize_range; assumption |].
  split; [rewrite Z.sub_diag; unfold Qdiv; apply Qmult_0_l |].
  split; [apply Qmult_inv_r; intros E; rewrite E in Hd; discriminate Hd |].
  split.
  - intros p p' Hp. unfold Qdiv. apply Qmult_le_compat_r.
    + rewrite <- Zle_Qle. lia.
    + apply Qlt_le_weak, Qinv_lt_0_compat, Hd.
  - intros p p' Hp. unfold Qdiv. apply Qmult_lt_compat_r.
    + apply Qinv_lt_0_compat, Hd.
    + rewrite <- Zlt_Qlt. lia.
Qed.


End Loading.

(** ** The projection and its dialog *)

Lemma slice_empty {A : Type} (a : Z) (l : list A) : Py.slice a a l = [].
Proof. unfold Py.slice. rewrite Z.sub_diag. reflexivity. Qed.

Lemma slice_lookup {A : Type} (a b : Z) (l : list A) (k : nat) :
  0 <= a -> 0 <= b ->
  Py.slice a b l !! k =
    if decide (a + Z.of_nat k < b) then l !! (Z.to_nat a + k)%nat else None.
Proof.
  intros Ha Hb. unfold Py.slice, Py.slice_index.
  destruct (a <? 0) eqn:E1; [apply Z.ltb_lt in E1; lia |].
  destruct (b <? 0) eqn:E2; [apply Z.ltb_lt in E2; lia |].
  destruct (decide (a + Z.of_nat k < b)) as [Hk | Hk].
  - destruct (decide (a + Z.of_nat k < Z.of_nat (length l))) as [Hn | Hn].
    + rewrite lookup_take_lt.
      * rewrite lookup_drop. f_equal. rewrite Z.min_l by lia. reflexivity.
      * lia.
    + rewrite (lookup_ge_None_2 l) by lia.
      apply lookup_ge_None_2. rewrite length_take, length_drop. lia.
  - apply lookup_ge_None_2. rewrite length_take, length_drop. lia.
Qed.



Lemma Forall_slice {A : Type} (P : A -> Prop) (a b : Z) (l : list A) :
  Forall P l -> Forall P (Py.slice a b l).
Proof. intros H. unfold Py.slice. apply Forall_take, Forall_drop, H. Qed.



Lemma int_below (x : Q) (n : Z) : 0 < n -> (x < inject_Z n)%Q -> Py.int x < n.
Proof.
  intros Hn Hx. destruct (Qlt_le_dec x 0) as [H | H].
  - pose proof (int_nonpos x (Qlt_le_weak _ _ H)). lia.
  - unfold Py.int. apply Qle_bool_iff in H. rewrite H.
    rewrite Zlt_Qlt. eapply Qle_lt_trans; [apply Qfloor_le | exact Hx].
Qed.

Lemma slice_without_last {A : Type} (a b : Z) (l : list A) :
  0 <= a -> 0 <= b <= Z.of_nat (length l) - 1 ->
  Py.slice a b l = Py.slice a b (removelast l).
Proof.
  intros Ha Hb. apply list_eq. intros k.
  rewrite !slice_lookup by lia.
  destruct (decide (a + Z.of_nat k < b)); [| reflexivity].
  rewrite removelast_firstn_len. symmetry. apply lookup_take_lt. lia.
Qed.

Section Projection.
Context `{ext : Externals}.


(** X15: a selection without height or without width is not refused: with
    y0 = y1 the dialog opens on an empty sequence, with x0 = x1 on one
    zero per selected row. *)
Theorem degenerate_selection_plots_nothing (s : DiffractionWindow) (bits : Z)
        (px : list (list Z)) (p : nat) (r : Rectangle) (x0 x1 y0 y1 : Z) :
  image s = Some (Array2 bits px) ->
  last_rect_patch s = Some p ->
  patch_objects s !! p = Some r ->
  crop_bounds r = (x0, x1, y0, y1) ->
  (y0 = y1 -> show_projection s = (s, [PlotDialog_exec []], Ok tt))
  /\ (x0 = x1 ->
      show_projection s
      = (s, [PlotDialog_exec (map (fun _ => 0) (Py.slice y0 y1 px))], Ok tt)).
Proof.
  intros Him Hlrp Hobj Hb.
  rewrite (show_projection_gray s bits px p r x0 x1 y0 y1 Him Hlrp Hobj Hb).
  unfold Py.np_sum_axis1, Py.slice2. split.
  - intros <-. rewrite slice_empty. reflexivity.
  - intros <-. rewrite map_map.
    rewrite (map_ext (fun row => Py.sum (Py.slice x0 x0 row)) (fun _ => 0));
      [reflexivity |].
    intros row. rewrite slice_empty. reflexivity.
Qed.


End Projection.

Lemma slice_map {A B : Type} (f : A -> B) (a b : Z) (l : list A) :
  Py.slice a b (map f l) = map f (Py.slice a b l).
Proof.
  unfold Py.slice. rewrite length_map, skipn_map, firstn_map. reflexivity.
Qed.



(** X18: a rectangle whose corners lie inside the axes of a w x h image is
    cropped within the array, short of its last column and last row:
    0 <= x0 <= x1 <= w - 1 and 0 <= y0 <= y1 <= h - 1, so that the region
    is the same as on the image without its last row and last column. *)
Theorem last_row_and_column_are_out_of_reach (w h : Z) (px : list (list Z))
        (r : Rectangle) (x0 x1 y0 y1 : Z) :
  0 < w -> 0 < h ->
  Z.of_nat (length px) = h ->
  Forall (fun row => Z.of_nat (length row) = w) px ->
  inside_axes w h r ->
  crop_bounds r = (x0, x1, y0, y1) ->
  (0 <= x0 <= x1 /\ x1 <= w - 1)
  /\ (0 <= y0 <= y1 /\ y1 <= h - 1)
  /\ Py.slice2 y0 y1 x0 x1 px
     = Py.slice2 y0 y1 x0 x1 (map (@removelast Z) (removelast px)).
Proof.
  intros Hw Hh Hrows Hcols Hin Hb.
  pose proof (crop_bounds_ordered r) as Hord. rewrite Hb in Hord.
  destruct Hord as [Hx Hy].
  unfold inside_axes in Hin. unfold crop_bounds in Hb.
  destruct (get_points r) as [[ax ay] [bx by_]].
  destruct Hin as ([Ha1 Ha2] & [Hb1 Hb2] & [Hc1 Hc2] & [Hd1 Hd2]).
  injection Hb as <- <- <- <-.
  assert (Bx0 : 0 <= Py.int (Qmin ax bx))
    by (apply int_above_minus_one, Q.min_glb_lt; assumption).
  assert (By0 : 0 <= Py.int (Qmin ay by_))
    by (apply int_above_minus_one, Q.min_glb_lt; assumption).
  assert (Bx1 : Py.int (Qmax ax bx) < w)
    by (apply int_below; [exact Hw | apply Q.max_lub_lt; assumption]).
  assert (By1 : Py.int (Qmax ay by_) < h)
    by (apply int_below; [exact Hh | apply Q.max_lub_lt; assumption]).
  split; [lia |]. split; [lia |].
  unfold Py.slice2.
  rewrite (slice_without_last _ _ px) by lia.
  rewrite slice_map, map_map.
  apply map_ext_in. intros row Hrow.
  apply slice_without_last; [lia |].
  assert (Hlen : Forall (fun row => Z.of_nat (length row) = w)
                   (Py.slice (Py.int (Qmin ay by_)) (Py.int (Qmax ay by_))
                      (removelast px))).
  { apply Forall_slice. rewrite removelast_firstn_len.
    apply Forall_take, Hcols. }
  rewrite Forall_forall in Hlen.
  rewrite (Hlen row) by (apply list_elem_of_In, Hrow). lia.
Qed.

(** ** The further properties at the sample files *)

Section MoreAtSamples.

Import Sample.
Local Existing Instance files.

Lemma last_motion_wins_witness :
  state_of (imageOnMotion (at_point 3 2)
              (state_of (imageOnMotion (at_point 2 2) pending)))
  = state_of (imageOnMotion (at_point 3 2) pending).
Proof.
  apply (last_motion_wins (at_point 2 2) (at_point 3 2) pending). reflexivity.
Defined.

Lemma only_presses_move_the_gesture_witness :
  start_point (step pending (MotionNotify (at_point 2 2))) = start_point pending
  /\ last_rect_patch (step pending (MotionNotify (at_point 2 2)))
     = last_rect_patch pending.
Proof.
  apply (only_presses_move_the_gesture pending (MotionNotify (at_point 2 2)));
    reflexivity.
Defined.

Lemma only_loads_change_the_image_witness :
  image (step loaded (ButtonPress (at_point 1 1))) = image loaded
  /\ axes_image (step loaded (ButtonPress (at_point 1 1))) = axes_image loaded
  /\ canvas_visible (step loaded (ButtonPress (at_point 1 1)))
     = canvas_visible loaded.
Proof.
  apply (only_loads_change_the_image loaded (ButtonPress (at_point 1 1))).
  reflexivity.
Defined.



Lemma hidden_canvas_selects_nothing_witness : nothing_selected clicked_too_early.
Proof.
  apply (hidden_canvas_selects_nothing clicked_too_early).
  - apply sample_reachable.
  - reflexivity.
Defined.


Lemma motion_previews_the_rectangle_witness :
  (exists q r,
     rect_patch (state_of (imageOnMotion (at_point 3 2) dragging)) = Some q
     /\ patch_objects (state_of (imageOnMotion (at_point 3 2) dragging)) !! q = Some r
     /\ (rect_x r, rect_y r) = (1%Q, 1%Q)
     /\ (rect_width r, rect_height r) = ((3 - 1)%Q, (2 - 1)%Q))
  /\ coord_label (state_of (imageOnMotion (at_point 3 2) dragging))
     = "Rect: x0=1 y0=1, x1=3, y1=2"%string.
Proof.
  apply (motion_previews_the_rectangle dragging (at_point 3 2) 1 1).
  - apply sample_reachable.
  - reflexivity.
  - reflexivity.
Defined.

Lemma failed_decode_changes_nothing_witness :
  browseFile "missing.png" committed = (committed, [], Raise DecodeError).
Proof.
  apply (failed_decode_changes_nothing "missing.png" committed DecodeError).
  - discriminate.
  - reflexivity.
Defined.

Lemma empty_array_aborts_the_load_witness :
  browseFile (ext := blank_files) "blank.tif" committed
  = (mkWindow (Some (Array2 8 [])) (start_point committed) (rect_patch committed)
       (last_rect_patch committed) (patch_objects committed) [] None
       (canvas_visible committed) (coord_label committed)
       (showProjBtn_enabled committed),
     [], Raise ValueError).
Proof.
  apply (empty_array_aborts_the_load (ext := blank_files) "blank.tif" committed 8 []).
  - discriminate.
  - reflexivity.
  - reflexivity.
Defined.


Lemma normalization_is_monotone_witness :
  exists f : Z -> Q,
    normalize 8 ramp = Ok (map (map (fun p => Py.Finite (f p))) ramp)
    /\ (f 0%Z == 0)%Q /\ (f 15%Z == 1)%Q
    /\ (forall p p', p <= p' -> (f p <= f p')%Q)
    /\ (forall p p', p < p' -> (f p < f p')%Q).
Proof.
  apply (normalization_is_monotone 8 ramp 0 15).
  - unfold samples_in_range, ramp. repeat constructor; lia.
  - reflexivity.
  - reflexivity.
  - lia.
Defined.



Lemma degenerate_selection_plots_nothing_witness :
  (2 = 2 -> show_projection double_click = (double_click, [PlotDialog_exec []], Ok tt))
  /\ (2 = 2 ->
      show_projection double_click
      = (double_click, [PlotDialog_exec (map (fun _ => 0) (Py.slice 2 2 ramp))],
         Ok tt)).
Proof.
  apply (degenerate_selection_plots_nothing double_click 8 ramp 0%nat
           (mkRectangle 2 2 (2 - 2) (2 - 2) 2) 2 2 2 2); reflexivity.
Defined.



Lemma last_row_and_column_are_out_of_reach_witness :
  (0 <= 1 <= 3 /\ 3 <= 4 - 1)
  /\ (0 <= 1 <= 3 /\ 3 <= 4 - 1)
  /\ Py.slice2 1 3 1 3 ramp
     = Py.slice2 1 3 1 3 (map (@removelast Z) (removelast ramp)).
Proof.
  apply (last_row_and_column_are_out_of_reach 4 4 ramp
           (mkRectangle 1 1 (3 - 1) (3 - 1) 2) 1 3 1 3).
  - lia.
  - lia.
  - reflexivity.
  - unfold ramp. repeat constructor.
  - unfold inside_axes. cbn. repeat split; reflexivity.
  - reflexivity.
Defined.

Lemma enabled_only_when_ready_witness :
  image committed <> None /\ last_rect_patch committed <> None
  /\ start_point committed = None.
Proof.
  apply (enabled_only_when_ready committed).
  - apply sample_reachable.
  - reflexivity.
Defined.

Lemma button_transitions_witness :
  showProjBtn_enabled pending = true
  \/ exists e, ButtonPress (at_point 3 3) = ButtonPress e /\ inaxes e = true
               /\ start_point pending <> None.
Proof.
  apply (button_transitions pending (ButtonPress (at_point 3 3))). reflexivity.
Defined.

End MoreAtSamples.
